(** * rejestr_io_mcp: the rejestr.io tool server, embedded and verified

    The server is one Python module, [rejestr_io_mcp.py]: a request helper
    [make_rejestr_io_request] and eleven tools registered with
    [@mcp.tool()].  Every tool formats an endpoint, awaits the helper inside
    [try], and turns an [httpx.HTTPError] into a value in [except].

    The module is embedded as interaction trees of finite depth: a program
    either finishes (returning a Python value or raising an exception) or
    awaits one [client.get] and continues with what the HTTP client hands
    back.  The HTTP client, the remote service, the process environment and
    Python's built-in string formatting are not code of the module; they are
    the parameters of the embedding. *)

From Stdlib Require Import String Ascii List ZArith Bool Lia.
From Stdlib Require Import Floats.SpecFloat DecimalString.
From ExtLib Require Import Structures.Monad Structures.MonadExc.
Import ListNotations.
Import MonadNotation.
Local Open Scope string_scope.
Local Open Scope monad_scope.
Set Warnings "-register-all".

(** ** Python values *)

(** What [response.json()] can decode to, and what a tool can hand back to
    its host.  A [dict] keeps its insertion order (the order shows in
    [str(d)]), so it is an association list. *)
Inductive value : Type :=
| PyNone
| PyBool (b : bool)
| PyInt (n : Z)
| PyFloat (x : spec_float)
| PyStr (s : string)
| PyList (items : list value)
| PyDict (items : list (string * value)).

(** ** Exceptions *)

(** The exception classes that matter to the module.  [httpx.HTTPError] is
    the common base class of [httpx.HTTPStatusError] (raised by
    [raise_for_status]) and of [httpx.RequestError] (transport and network
    failures); everything else, such as the [json.JSONDecodeError] of a body
    that is not JSON, lies outside that class. *)
Inductive exn : Type :=
| HTTPStatusError (message : string)
| RequestError (message : string)
| JSONDecodeError (message : string)
| OtherError (class_name message : string).

(** [isinstance(e, httpx.HTTPError)] *)
Definition is_HTTPError (e : exn) : bool :=
  match e with
  | HTTPStatusError _ | RequestError _ => true
  | JSONDecodeError _ | OtherError _ _ => false
  end.

(** [str(e)], which is what [f"{e}"] renders *)
Definition exn_str (e : exn) : string :=
  match e with
  | HTTPStatusError m | RequestError m | JSONDecodeError m | OtherError _ m => m
  end.

(** How a call ends. *)
Inductive outcome (A : Type) : Type :=
| Returned (a : A)
| Raised (e : exn).
Arguments Returned {A} a.
Arguments Raised {A} e.

(** ** The HTTP client's objects *)

(** A header dictionary as the module builds it: the value is whatever
    [os.getenv] gave, [None] included. *)
Definition header_dict : Type := list (string * option string).

(** One outbound GET: the two arguments of [client.get]. *)
Record request : Type := mk_request {
  req_url : string;
  req_headers : header_dict
}.

(** An [httpx.Response], as far as the module looks at it: its status code,
    the text [raise_for_status] puts in the [HTTPStatusError] it raises for
    it, and the decoded body ([None] when the body is not JSON). *)
Record Response : Type := mk_Response {
  status_code : Z;
  status_error_text : string;
  json_body : option value;
  json_error_text : string
}.

(** ** Programs *)

(** A program of the module: finished, or awaiting [client.get(url,
    headers=hdrs)] with the rest of the coroutine as continuation.  The
    client gives back a response or raises. *)
Inductive io (A : Type) : Type :=
| Done (o : outcome A)
| Await_get (url : string) (hdrs : header_dict) (k : outcome Response -> io A).
Arguments Done {A} o.
Arguments Await_get {A} url hdrs k.

Fixpoint io_bind {A B : Type} (p : io A) (f : A -> io B) : io B :=
  match p with
  | Done (Returned a) => f a
  | Done (Raised e) => Done (Raised e)
  | Await_get url hdrs k => Await_get url hdrs (fun r => io_bind (k r) f)
  end.

Fixpoint io_catch {A : Type} (p : io A) (h : exn -> io A) : io A :=
  match p with
  | Done (Returned a) => Done (Returned a)
  | Done (Raised e) => h e
  | Await_get url hdrs k => Await_get url hdrs (fun r => io_catch (k r) h)
  end.

#[global] Instance Monad_io : Monad io :=
  {| ret := fun A (a : A) => Done (Returned a);
     bind := fun A B => @io_bind A B |}.

#[global] Instance MonadExc_io : MonadExc exn io :=
  {| raise := fun A (e : exn) => Done (Raised e);
     catch := fun A => @io_catch A |}.

(** [try: body  except httpx.HTTPError as e: handler]: an exception of
    another class is not caught and leaves the [try] statement. *)
Definition try_except_HTTPError {A : Type} (body : io A) (handler : exn -> io A) : io A :=
  catch body (fun e => if is_HTTPError e then handler e else raise e).

Notation "'try' body 'except_HTTPError' e '=>' handler" :=
  (try_except_HTTPError body (fun e => handler))
  (at level 10, body at level 9, e name, handler at level 200).

(** ** The parts of httpx the module calls *)

(** [await client.get(url, headers=hdrs)] *)
Definition client_get (url : string) (hdrs : header_dict) : io Response :=
  Await_get url hdrs (fun r => Done r).

(** [response.is_success]: the status code is 2xx. *)
Definition is_success (r : Response) : bool :=
  (200 <=? status_code r)%Z && (status_code r <=? 299)%Z.

(** [response.raise_for_status()] *)
Definition raise_for_status (r : Response) : io unit :=
  if is_success r then ret tt else raise (HTTPStatusError (status_error_text r)).

(** [response.json()] *)
Definition response_json (r : Response) : io value :=
  match json_body r with
  | Some v => ret v
  | None => raise (JSONDecodeError (json_error_text r))
  end.

(** ** The module *)

Section Module_rejestr_io_mcp.

(** [os.getenv], after [load_dotenv()] has run. *)
Variable getenv : string -> option string.

(** The text an f-string puts for [{v}], that is [format(v)]. *)
Variable format_value : value -> string.

(** [headers = {'Authorization': os.getenv("REJESTR_IO_API_KEY")}] *)
Definition headers : header_dict :=
  [("Authorization", getenv "REJESTR_IO_API_KEY")].

Definition REJESTR_IO_BASE_API : string := "https://rejestr.io/api/v2".

(** The [async with httpx.AsyncClient() as client] block: the client is
    opened and closed around the one request and holds nothing else. *)
Definition make_rejestr_io_request (endpoint : string) : io value :=
  response <- client_get (REJESTR_IO_BASE_API ++ "/" ++ endpoint) headers ;;
  raise_for_status response ;;
  response_json response.

Definition get_token_amount : io value :=
  try
    (data <- make_rejestr_io_request "konto/stan" ;;
     ret (PyStr (format_value data ++ " PLN")))
  except_HTTPError e =>
    ret (PyStr ("An error occurred: " ++ exn_str e)).

Definition get_company_info_using_nip (nip : string) : io value :=
  try
    (data <- make_rejestr_io_request ("org/nip/" ++ nip) ;;
     ret data)
  except_HTTPError e =>
    ret (PyDict [("error", PyStr ("An error occurred: " ++ exn_str e))]).

Definition get_company_info_using_krs (krs : string) : io value :=
  try
    (data <- make_rejestr_io_request ("org/" ++ krs) ;;
     ret data)
  except_HTTPError e =>
    ret (PyDict [("error", PyStr ("An error occurred: " ++ exn_str e))]).

Definition get_company_info_using_name (name : string) : io value :=
  try
    (data <- make_rejestr_io_request ("org?nazwa=" ++ name) ;;
     ret data)
  except_HTTPError e =>
    ret (PyDict [("error", PyStr ("An error occurred: " ++ exn_str e))]).

Definition get_company_krs_documentation (krs chapter : string) : io value :=
  try
    (data <- make_rejestr_io_request ("org/" ++ krs ++ "/krs-rozdzialy/" ++ chapter) ;;
     ret data)
  except_HTTPError e =>
    ret (PyDict [("error", PyStr ("An error occurred: " ++ exn_str e))]).

Definition get_person_data (id : string) : io value :=
  try
    (data <- make_rejestr_io_request ("osoby/" ++ id) ;;
     ret data)
  except_HTTPError e =>
    ret (PyDict [("error", PyStr ("An error occurred: " ++ exn_str e))]).

Definition get_beneficiary (krs : string) : io value :=
  try
    (data <- make_rejestr_io_request ("org/" ++ krs ++ "/crbr") ;;
     ret data)
  except_HTTPError e =>
    ret (PyDict [("error", PyStr ("An error occurred: " ++ exn_str e))]).

Definition get_connections_by_krs (krs : string) : io value :=
  try
    (data <- make_rejestr_io_request ("org/" ++ krs ++ "/krs-powiazania") ;;
     ret data)
  except_HTTPError e =>
    ret (PyDict [("error", PyStr ("An error occurred: " ++ exn_str e))]).

Definition get_connections_by_person (id : string) : io value :=
  try
    (data <- make_rejestr_io_request ("osoby/" ++ id ++ "/krs-powiazania") ;;
     ret data)
  except_HTTPError e =>
    ret (PyDict [("error", PyStr ("An error occurred: " ++ exn_str e))]).

Definition get_financial_documents (krs : string) : io value :=
  try
    (data <- make_rejestr_io_request ("org/" ++ krs ++ "/krs-dokumenty") ;;
     ret data)
  except_HTTPError e =>
    ret (PyDict [("error", PyStr ("An error occurred: " ++ exn_str e))]).

Definition get_financial_statement_in_json (krs doc_id : string) : io value :=
  try
    (data <- make_rejestr_io_request
               ("org/" ++ krs ++ "/krs-dokumenty/" ++ doc_id ++ "?format=json") ;;
     ret data)
  except_HTTPError e =>
    ret (PyDict [("error", PyStr ("An error occurred: " ++ exn_str e))]).

End Module_rejestr_io_mcp.

Arguments headers getenv : assert.

(** ** The tool registry *)

(** A tool invocation as the host sends it: the name of a function
    registered with [@mcp.tool()] and its string arguments. *)
Inductive tool_call : Type :=
| Call_get_token_amount
| Call_get_company_info_using_nip (nip : string)
| Call_get_company_info_using_krs (krs : string)
| Call_get_company_info_using_name (name : string)
| Call_get_company_krs_documentation (krs chapter : string)
| Call_get_person_data (id : string)
| Call_get_beneficiary (krs : string)
| Call_get_connections_by_krs (krs : string)
| Call_get_connections_by_person (id : string)
| Call_get_financial_documents (krs : string)
| Call_get_financial_statement_in_json (krs doc_id : string).

Section Registry.

Variable getenv : string -> option string.
Variable format_value : value -> string.

(** The dispatch the registry performs: the call runs the function of
    that name on the arguments given. *)
Definition invoke (c : tool_call) : io value :=
  match c with
  | Call_get_token_amount => get_token_amount getenv format_value
  | Call_get_company_info_using_nip nip => get_company_info_using_nip getenv nip
  | Call_get_company_info_using_krs krs => get_company_info_using_krs getenv krs
  | Call_get_company_info_using_name name => get_company_info_using_name getenv name
  | Call_get_company_krs_documentation krs chapter =>
      get_company_krs_documentation getenv krs chapter
  | Call_get_person_data id => get_person_data getenv id
  | Call_get_beneficiary krs => get_beneficiary getenv krs
  | Call_get_connections_by_krs krs => get_connections_by_krs getenv krs
  | Call_get_connections_by_person id => get_connections_by_person getenv id
  | Call_get_financial_documents krs => get_financial_documents getenv krs
  | Call_get_financial_statement_in_json krs doc_id =>
      get_financial_statement_in_json getenv krs doc_id
  end.

End Registry.

(** The balance check is the one tool that wraps what it received. *)
Definition is_balance_check (c : tool_call) : bool :=
  match c with
  | Call_get_token_amount => true
  | _ => false
  end.

(** ** The specification's table of templates *)

(** The endpoint of each operation as the specification tabulates it
    (section 4.2, base omitted), with the arguments of the call put in place
    of the [{x}].  It is written from the table, independently of the tool
    bodies above, and compared with them below. *)
Definition spec_template (c : tool_call) : string :=
  match c with
  | Call_get_token_amount => "konto/stan"
  | Call_get_company_info_using_nip nip => "org/nip/" ++ nip
  | Call_get_company_info_using_krs krs => "org/" ++ krs
  | Call_get_company_info_using_name name => "org?nazwa=" ++ name
  | Call_get_company_krs_documentation krs chapter =>
      "org/" ++ krs ++ "/krs-rozdzialy/" ++ chapter
  | Call_get_person_data id => "osoby/" ++ id
  | Call_get_beneficiary krs => "org/" ++ krs ++ "/crbr"
  | Call_get_connections_by_krs krs => "org/" ++ krs ++ "/krs-powiazania"
  | Call_get_connections_by_person id => "osoby/" ++ id ++ "/krs-powiazania"
  | Call_get_financial_documents krs => "org/" ++ krs ++ "/krs-dokumenty"
  | Call_get_financial_statement_in_json krs doc_id =>
      "org/" ++ krs ++ "/krs-dokumenty/" ++ doc_id ++ "?format=json"
  end.

(** The request the specification expects for an endpoint: [GET
    {base}/{endpoint}] with the credential in the [Authorization] header. *)
Definition spec_request (getenv : string -> option string) (endpoint : string) : request :=
  {| req_url := "https://rejestr.io/api/v2" ++ "/" ++ endpoint;
     req_headers := [("Authorization", getenv "REJESTR_IO_API_KEY")] |}.

(** ** Running a program *)

(** The world outside the process, seen from [client.get]: for each request
    either a response or an exception raised by the client. *)
Definition transport : Type := request -> outcome Response.

(** Run a program against a transport; the second component lists the
    requests in the order they were issued. *)
Fixpoint run {A : Type} (net : transport) (p : io A) : outcome A * list request :=
  match p with
  | Done o => (o, [])
  | Await_get url hdrs k =>
      let rq := mk_request url hdrs in
      let (o, sent) := run net (k (net rq)) in
      (o, rq :: sent)
  end.

Definition result_of {A : Type} (net : transport) (p : io A) : outcome A :=
  fst (run net p).

Definition requests_of {A : Type} (net : transport) (p : io A) : list request :=
  snd (run net p).

(** A remote service with a state of its own (an account balance, say),
    which each request may read and change. *)
Definition service (S : Type) : Type := S -> request -> outcome Response * S.

(** Two invocations in flight at once.  The schedule says whose pending
    request the service handles next ([true]: the first program's); when the
    schedule is used up the first program is run to its end, then the
    second.  The result gives both outcomes and the state the service is
    left in. *)
Fixpoint finish {A S : Type} (srv : service S) (p : io A) (st : S) : outcome A * S :=
  match p with
  | Done o => (o, st)
  | Await_get url hdrs k =>
      let (r, st') := srv st (mk_request url hdrs) in
      finish srv (k r) st'
  end.

Fixpoint interleave {A B S : Type} (srv : service S) (schedule : list bool)
    (p : io A) (q : io B) (st : S) : outcome A * outcome B * S :=
  match schedule with
  | [] =>
      let (a, st1) := finish srv p st in
      let (b, st2) := finish srv q st1 in
      (a, b, st2)
  | true :: rest =>
      match p with
      | Done _ => interleave srv rest p q st
      | Await_get url hdrs k =>
          let (r, st') := srv st (mk_request url hdrs) in
          interleave srv rest (k r) q st'
      end
  | false :: rest =>
      match q with
      | Done _ => interleave srv rest p q st
      | Await_get url hdrs k =>
          let (r, st') := srv st (mk_request url hdrs) in
          interleave srv rest p (k r) st'
      end
  end.

(** A service without state is a transport. *)
Definition stateless (net : transport) : service unit :=
  fun st rq => (net rq, st).

(** What a tool call makes of the client's answer to its request: the call
    run against a client that gives that answer. *)
Definition tool_result (getenv : string -> option string) (format_value : value -> string)
    (c : tool_call) (reply : outcome Response) : outcome value :=
  result_of (fun _ => reply) (invoke getenv format_value c).

(** The two serial orders of two one-request programs against a service:
    [f1] and [f2] turn each program's reply into its result. *)
Definition first_then_second {A B S : Type} (srv : service S) (rq1 rq2 : request)
    (f1 : outcome Response -> outcome A) (f2 : outcome Response -> outcome B) (st : S)
    : outcome A * outcome B * S :=
  let (r1, st1) := srv st rq1 in
  let (r2, st2) := srv st1 rq2 in
  (f1 r1, f2 r2, st2).

Definition second_then_first {A B S : Type} (srv : service S) (rq1 rq2 : request)
    (f1 : outcome Response -> outcome A) (f2 : outcome Response -> outcome B) (st : S)
    : outcome A * outcome B * S :=
  let (r2, st2) := srv st rq2 in
  let (r1, st1) := srv st2 rq1 in
  (f1 r1, f2 r2, st1).

(** ** The client's check of header values *)

(** This is httpx, not code of the module.  While [client.get] builds the
    request, and before anything is sent, httpx turns every header value
    into bytes; a value that is neither [str] nor [bytes] makes it raise
    [TypeError].  The [None] that [os.getenv] gives for a missing variable
    is such a value. *)
Definition header_values_ok (hdrs : header_dict) : bool :=
  forallb (fun kv : string * option string =>
             match snd kv with
             | Some _ => true
             | None => false
             end) hdrs.

Definition header_TypeError : exn :=
  OtherError "TypeError" "Header value must be str or bytes, not <class 'NoneType'>".

(** The client in front of a remote service: a request whose headers pass
    the check is sent and the remote answers it; any other is refused on
    the spot and the remote never sees it. *)
Definition httpx_client (remote : transport) : transport :=
  fun rq =>
    if header_values_ok (req_headers rq) then remote rq
    else Raised header_TypeError.


(** ** The specification's vocabulary *)

(** The error envelope of the specification:
    [{"error": "An error occurred: {details}"}]. *)
Definition error_envelope (details : string) : value :=
  PyDict [("error", PyStr ("An error occurred: " ++ details))].

(** A remote failure, as the helper meets it, together with the text of its
    cause: the client raised an [httpx.HTTPError] (the network failed), or
    it handed back a response whose status is not 2xx. *)
Inductive remote_failure : outcome Response -> string -> Prop :=
| Network_failure (e : exn) :
    is_HTTPError e = true -> remote_failure (Raised e) (exn_str e)
| Status_failure (r : Response) :
    is_success r = false -> remote_failure (Returned r) (status_error_text r).

(** A successful exchange: a 2xx response whose body decodes to [J]. *)
Definition remote_success (reply : outcome Response) (J : value) : Prop :=
  exists r, reply = Returned r /\ is_success r = true /\ json_body r = Some J.

(** ** URL syntax *)

(** The generic syntax of a URL (RFC 3986, section 3): the fragment starts
    at the first ['#'], the query at the first ['?'] before it; the query's
    parameters are separated by ['&'] and the path's segments by ['/']. *)
Fixpoint before_first (sep : ascii) (s : string) : string :=
  match s with
  | EmptyString => EmptyString
  | String ch rest =>
      if Ascii.eqb ch sep then EmptyString else String ch (before_first sep rest)
  end.

Fixpoint after_first (sep : ascii) (s : string) : option string :=
  match s with
  | EmptyString => None
  | String ch rest => if Ascii.eqb ch sep then Some rest else after_first sep rest
  end.

Fixpoint split_on (sep : ascii) (s : string) : list string :=
  match s with
  | EmptyString => [EmptyString]
  | String ch rest =>
      if Ascii.eqb ch sep then EmptyString :: split_on sep rest
      else match split_on sep rest with
           | piece :: pieces => String ch piece :: pieces
           | [] => [String ch EmptyString]
           end
  end.

Fixpoint count_char (sep : ascii) (s : string) : nat :=
  match s with
  | EmptyString => 0
  | String ch rest => (if Ascii.eqb ch sep then 1 else 0) + count_char sep rest
  end.

Definition url_query (url : string) : option string :=
  after_first "?" (before_first "#" url).

Definition query_parameters (url : string) : list string :=
  match url_query url with
  | Some q => split_on "&" q
  | None => []
  end.

Definition url_path (url : string) : string :=
  before_first "?" (before_first "#" url).

(** ** Sample surroundings for the examples *)

(** An environment that holds the key, and one that does not. *)
Definition env_with_key : string -> option string :=
  fun name => if String.eqb name "REJESTR_IO_API_KEY" then Some "k-123" else None.


(** A formatter for the examples.  It is Python's on [None], the Booleans,
    the integers and strings, which is all the examples format; the other
    values are outside its domain and come out empty. *)
Definition format_scalar (v : value) : string :=
  match v with
  | PyNone => "None"
  | PyBool true => "True"
  | PyBool false => "False"
  | PyInt n => NilZero.string_of_int (Z.to_int n)
  | PyStr s => s
  | _ => EmptyString
  end.

Definition response_ok (J : value) : Response :=
  {| status_code := 200; status_error_text := EmptyString; json_body := Some J;
     json_error_text := EmptyString |}.

Definition response_401 : Response :=
  {| status_code := 401;
     status_error_text := "Client error '401 Unauthorized'";
     json_body := Some (PyDict [("kod", PyInt 401)]);
     json_error_text := EmptyString |}.

Definition response_not_json : Response :=
  {| status_code := 200; status_error_text := EmptyString; json_body := None;
     json_error_text := "Expecting value: line 1 column 1 (char 0)" |}.

(** A service with a state: the account balance, which a statement fetch
    lowers and the balance check reports. *)
Definition metered_service : service Z :=
  fun balance rq =>
    if String.eqb (req_url rq) "https://rejestr.io/api/v2/konto/stan"
    then (Returned (response_ok (PyInt balance)), balance)
    else (Returned (response_ok (PyDict [("id", PyInt 9)])), (balance - 1)%Z).

(** ** Names and arguments of the calls *)

(** The name a call addresses: the name of the function that
    [@mcp.tool()] registered. *)
Definition tool_name (c : tool_call) : string :=
  match c with
  | Call_get_token_amount => "get_token_amount"
  | Call_get_company_info_using_nip _ => "get_company_info_using_nip"
  | Call_get_company_info_using_krs _ => "get_company_info_using_krs"
  | Call_get_company_info_using_name _ => "get_company_info_using_name"
  | Call_get_company_krs_documentation _ _ => "get_company_krs_documentation"
  | Call_get_person_data _ => "get_person_data"
  | Call_get_beneficiary _ => "get_beneficiary"
  | Call_get_connections_by_krs _ => "get_connections_by_krs"
  | Call_get_connections_by_person _ => "get_connections_by_person"
  | Call_get_financial_documents _ => "get_financial_documents"
  | Call_get_financial_statement_in_json _ _ => "get_financial_statement_in_json"
  end.

(** The string arguments of a call, in the order of the signature. *)
Definition call_arguments (c : tool_call) : list string :=
  match c with
  | Call_get_token_amount => []
  | Call_get_company_info_using_nip nip => [nip]
  | Call_get_company_info_using_krs krs => [krs]
  | Call_get_company_info_using_name name => [name]
  | Call_get_company_krs_documentation krs chapter => [krs; chapter]
  | Call_get_person_data id => [id]
  | Call_get_beneficiary krs => [krs]
  | Call_get_connections_by_krs krs => [krs]
  | Call_get_connections_by_person id => [id]
  | Call_get_financial_documents krs => [krs]
  | Call_get_financial_statement_in_json krs doc_id => [krs; doc_id]
  end.

(** ** Concrete runs *)

Example run_get_company_info_using_krs :
  run (fun _ => Returned (response_ok (PyDict [("id", PyInt 12345)])))
      (get_company_info_using_krs env_with_key "0000012345") =
  (Returned (PyDict [("id", PyInt 12345)]),
   [{| req_url := "https://rejestr.io/api/v2/org/0000012345";
       req_headers := [("Authorization", Some "k-123")] |}]).
Proof. reflexivity. Qed.

Example run_get_token_amount :
  result_of (fun _ => Returned (response_ok (PyInt 100)))
    (get_token_amount env_with_key format_scalar) =
  Returned (PyStr "100 PLN").
Proof. reflexivity. Qed.

Example run_get_token_amount_unauthorized :
  result_of (fun _ => Returned response_401)
    (get_token_amount env_with_key format_scalar) =
  Returned (PyStr "An error occurred: Client error '401 Unauthorized'").
Proof. reflexivity. Qed.

Example run_get_beneficiary_network_down :
  result_of (fun _ => Raised (RequestError "connection refused"))
    (get_beneficiary env_with_key "12345") =
  Returned (PyDict [("error", PyStr "An error occurred: connection refused")]).
Proof. reflexivity. Qed.

(** A 2xx answer whose body is not JSON: [response.json()] raises, the
    exception is no [httpx.HTTPError], and the tool lets it through. *)
Example run_get_person_data_not_json :
  result_of (fun _ => Returned response_not_json) (get_person_data env_with_key "7") =
  Raised (JSONDecodeError "Expecting value: line 1 column 1 (char 0)").
Proof. reflexivity. Qed.

Example query_parameters_of_search :
  query_parameters "https://rejestr.io/api/v2/org?nazwa=Jan&strona=2#x" =
  ["nazwa=Jan"; "strona=2"].
Proof. reflexivity. Qed.

(** ** What the helper does with the client's answer *)

Lemma run_helper (getenv : string -> option string) (endpoint : string) (net : transport) :
  run net (make_rejestr_io_request getenv endpoint) =
  (match net (spec_request getenv endpoint) with
   | Raised e => Raised e
   | Returned r =>
       if is_success r then
         match json_body r with
         | Some J => Returned J
         | None => Raised (JSONDecodeError (json_error_text r))
         end
       else Raised (HTTPStatusError (status_error_text r))
   end,
   [spec_request getenv endpoint]).
Proof.
  unfold make_rejestr_io_request, spec_request, REJESTR_IO_BASE_API, headers.
  cbn.
  destruct (net _) as [r | e]; cbn; [ | reflexivity ].
  unfold raise_for_status, response_json.
  destruct (is_success r); cbn; [ | reflexivity ].
  destruct (json_body r); reflexivity.
Qed.

(** Running [try body except_HTTPError e => ret (h e)] when the body is the
    helper followed by a pure wrapper [w]. *)
Lemma run_tool_body (getenv : string -> option string) (endpoint : string)
    (w : value -> value) (h : exn -> value) (net : transport) :
  run net (try (data <- make_rejestr_io_request getenv endpoint ;; ret (w data))
           except_HTTPError e => ret (h e)) =
  (match net (spec_request getenv endpoint) with
   | Raised e => if is_HTTPError e then Returned (h e) else Raised e
   | Returned r =>
       if is_success r then
         match json_body r with
         | Some J => Returned (w J)
         | None => Raised (JSONDecodeError (json_error_text r))
         end
       else Returned (h (HTTPStatusError (status_error_text r)))
   end,
   [spec_request getenv endpoint]).
Proof.
  unfold make_rejestr_io_request, spec_request, REJESTR_IO_BASE_API, headers,
    try_except_HTTPError.
  cbn.
  destruct (net _) as [r | e]; cbn.
  - unfold raise_for_status, response_json.
    destruct (is_success r); cbn; [ | reflexivity ].
    destruct (json_body r); reflexivity.
  - destruct (is_HTTPError e); reflexivity.
Qed.

(** Every tool, run against any transport: one request, to the endpoint of
    the specification's table, and a result read off the client's answer. *)
Lemma run_invoke (getenv : string -> option string) (format_value : value -> string)
    (c : tool_call) (net : transport) :
  run net (invoke getenv format_value c) =
  (match net (spec_request getenv (spec_template c)) with
   | Raised e =>
       if is_HTTPError e then
         Returned (if is_balance_check c
                   then PyStr ("An error occurred: " ++ exn_str e)
                   else error_envelope (exn_str e))
       else Raised e
   | Returned r =>
       if is_success r then
         match json_body r with
         | Some J =>
             Returned (if is_balance_check c
                       then PyStr (format_value J ++ " PLN")
                       else J)
         | None => Raised (JSONDecodeError (json_error_text r))
         end
       else
         Returned (if is_balance_check c
                   then PyStr ("An error occurred: " ++ status_error_text r)
                   else error_envelope (status_error_text r))
   end,
   [spec_request getenv (spec_template c)]).
Proof.
  destruct c; cbn [invoke spec_template is_balance_check];
    unfold get_token_amount, get_company_info_using_nip, get_company_info_using_krs,
      get_company_info_using_name, get_company_krs_documentation, get_person_data,
      get_beneficiary, get_connections_by_krs, get_connections_by_person,
      get_financial_documents, get_financial_statement_in_json;
    rewrite run_tool_body; reflexivity.
Qed.

Lemma result_of_invoke_failure (getenv : string -> option string)
    (format_value : value -> string) (c : tool_call) (net : transport) (details : string) :
  remote_failure (net (spec_request getenv (spec_template c))) details ->
  result_of net (invoke getenv format_value c) =
  Returned (if is_balance_check c
            then PyStr ("An error occurred: " ++ details)
            else error_envelope details).
Proof.
  intros Hfail. unfold result_of. rewrite run_invoke. cbn [fst].
  inversion Hfail as [e He Hnet | r Hr Hnet]; subst.
  - rewrite He. reflexivity.
  - rewrite Hr. reflexivity.
Qed.

Lemma result_of_invoke_success (getenv : string -> option string)
    (format_value : value -> string) (c : tool_call) (net : transport) (J : value) :
  remote_success (net (spec_request getenv (spec_template c))) J ->
  result_of net (invoke getenv format_value c) =
  Returned (if is_balance_check c then PyStr (format_value J ++ " PLN") else J).
Proof.
  intros (r & Hnet & Hok & Hbody). unfold result_of.
  rewrite run_invoke, Hnet, Hok, Hbody. reflexivity.
Qed.

Lemma requests_of_invoke (getenv : string -> option string)
    (format_value : value -> string) (c : tool_call) (net : transport) :
  requests_of net (invoke getenv format_value c) =
  [spec_request getenv (spec_template c)].
Proof. unfold requests_of. rewrite run_invoke. reflexivity. Qed.

(** A tool body is one awaited request whose continuation is finished. *)
Lemma tool_body_awaits (getenv : string -> option string) (endpoint : string)
    (w : value -> value) (h : exn -> value) :
  let p := try (data <- make_rejestr_io_request getenv endpoint ;; ret (w data))
           except_HTTPError e => ret (h e) in
  exists k : outcome Response -> io value,
    p = Await_get (req_url (spec_request getenv endpoint))
                  (req_headers (spec_request getenv endpoint)) k /\
    forall reply, k reply = Done (result_of (fun _ => reply) p).
Proof.
  cbv zeta. eexists. split; [ reflexivity | ].
  intros reply. unfold result_of. rewrite run_tool_body. cbn [fst].
  destruct reply as [r | e]; cbn.
  - unfold raise_for_status, response_json.
    destruct (is_success r); cbn; [ | reflexivity ].
    destruct (json_body r); reflexivity.
  - destruct (is_HTTPError e); reflexivity.
Qed.

Lemma invoke_awaits (getenv : string -> option string) (format_value : value -> string)
    (c : tool_call) :
  exists k : outcome Response -> io value,
    invoke getenv format_value c =
      Await_get (req_url (spec_request getenv (spec_template c)))
                (req_headers (spec_request getenv (spec_template c))) k /\
    forall reply, k reply = Done (tool_result getenv format_value c reply).
Proof.
  unfold tool_result.
  destruct c; cbn [invoke spec_template]; apply tool_body_awaits.
Qed.


(** ** Error handling at the tool boundary (C1) *)

(** C1, as stated, fails at the balance check: with the network down,
    [get_token_amount] returns the bare string
    ["An error occurred: connection refused"], which is not the mapping
    [{"error": "An error occurred: connection refused"}]. *)
Lemma C1_balance_check_returns_a_string :
  let net : transport := fun _ => Raised (RequestError "connection refused") in
  remote_failure (net (spec_request env_with_key (spec_template Call_get_token_amount)))
    "connection refused" /\
  result_of net (invoke env_with_key format_scalar Call_get_token_amount) =
    Returned (PyStr "An error occurred: connection refused") /\
  result_of net (invoke env_with_key format_scalar Call_get_token_amount) <>
    Returned (error_envelope "connection refused").
Proof.
  cbv zeta. split; [ | split ].
  - exact (Network_failure (RequestError "connection refused") eq_refl).
  - reflexivity.
  - intros H. vm_compute in H. discriminate H.
Qed.

(** C1, amended: on a remote failure (the client raises an
    [httpx.HTTPError], or the response has a status that is not 2xx) each of
    the ten data tools returns the mapping
    [{"error": "An error occurred: {details}"}], and the balance check
    [get_token_amount] returns the string ["An error occurred: {details}"];
    in all eleven cases the call returns, it does not raise. *)
Theorem C1_remote_failure_is_returned (getenv : string -> option string)
    (format_value : value -> string) (c : tool_call) (net : transport) (details : string) :
  remote_failure (net (spec_request getenv (spec_template c))) details ->
  result_of net (invoke getenv format_value c) =
  Returned (match c with
            | Call_get_token_amount => PyStr ("An error occurred: " ++ details)
            | _ => PyDict [("error", PyStr ("An error occurred: " ++ details))]
            end).
Proof.
  intros Hfail.
  rewrite (result_of_invoke_failure getenv format_value c net details Hfail).
  destruct c; reflexivity.
Qed.

Lemma C1_remote_failure_is_returned_witness :
  let net : transport := fun _ => Returned response_401 in
  remote_failure
    (net (spec_request env_with_key (spec_template (Call_get_person_data "77")))) 
    "Client error '401 Unauthorized'" /\
  result_of net (invoke env_with_key format_scalar (Call_get_person_data "77")) =
  Returned (PyDict [("error", PyStr "An error occurred: Client error '401 Unauthorized'")]).
Proof.
  cbv zeta.
  assert (H : remote_failure (Returned response_401) "Client error '401 Unauthorized'")
    by exact (Status_failure response_401 eq_refl).
  split; [ exact H | ].
  exact (C1_remote_failure_is_returned env_with_key format_scalar
           (Call_get_person_data "77") (fun _ => Returned response_401)
           "Client error '401 Unauthorized'" H).
Defined.

(** ** Pass-through on success (C2) *)

(** C2: when the remote call succeeds with decoded body [J], every tool but
    the balance check returns [J] itself, and the balance check returns the
    string [f"{J} PLN"]. *)
Theorem C2_success_pass_through (getenv : string -> option string)
    (format_value : value -> string) (c : tool_call) (net : transport) (J : value) :
  remote_success (net (spec_request getenv (spec_template c))) J ->
  result_of net (invoke getenv format_value c) =
  Returned (match c with
            | Call_get_token_amount => PyStr (format_value J ++ " PLN")
            | _ => J
            end).
Proof.
  intros Hok.
  rewrite (result_of_invoke_success getenv format_value c net J Hok).
  destruct c; reflexivity.
Qed.

Lemma C2_success_pass_through_witness :
  let net : transport := fun _ => Returned (response_ok (PyInt 100)) in
  remote_success (net (spec_request env_with_key (spec_template Call_get_token_amount)))
    (PyInt 100) /\
  result_of net (invoke env_with_key format_scalar Call_get_token_amount) =
  Returned (PyStr "100 PLN").
Proof.
  cbv zeta.
  assert (H : remote_success (Returned (response_ok (PyInt 100))) (PyInt 100))
    by (exists (response_ok (PyInt 100)); repeat split).
  split; [ exact H | ].
  exact (C2_success_pass_through env_with_key format_scalar Call_get_token_amount
           (fun _ => Returned (response_ok (PyInt 100))) (PyInt 100) H).
Defined.

(** ** The outbound request (C3) *)

(** C3: for every endpoint the helper issues one GET, to
    [{base}/{endpoint}], with the credential read from the environment as
    the [Authorization] header; and every request a tool issues is of that
    form, for the endpoint of the tool's template. *)
Theorem C3_url_and_credential (getenv : string -> option string)
    (format_value : value -> string) (net : transport) :
  (forall endpoint : string,
     requests_of net (make_rejestr_io_request getenv endpoint) =
     [{| req_url := "https://rejestr.io/api/v2" ++ "/" ++ endpoint;
         req_headers := [("Authorization", getenv "REJESTR_IO_API_KEY")] |}]) /\
  (forall (c : tool_call) (rq : request),
     In rq (requests_of net (invoke getenv format_value c)) ->
     req_url rq = REJESTR_IO_BASE_API ++ "/" ++ spec_template c /\
     req_headers rq = headers getenv).
Proof.
  split.
  - intros endpoint. unfold requests_of. rewrite run_helper. reflexivity.
  - intros c rq Hin. rewrite requests_of_invoke in Hin.
    destruct Hin as [<- | []]. split; reflexivity.
Qed.

(** ** The helper's contract (C4) *)

(** C4: the helper issues its request once.  If the client raises, the
    helper raises that very exception; if the status is not 2xx, it raises
    the [HTTPStatusError] of [raise_for_status]; either way the exception is
    an [httpx.HTTPError] whose text is the cause.  On a 2xx response with a
    JSON body it returns the decoded body. *)
Theorem C4_helper_contract (getenv : string -> option string) (endpoint : string)
    (net : transport) :
  let reply := net (spec_request getenv endpoint) in
  let p := make_rejestr_io_request getenv endpoint in
  requests_of net p = [spec_request getenv endpoint] /\
  (forall e : exn, reply = Raised e -> result_of net p = Raised e) /\
  (forall r : Response,
     reply = Returned r -> is_success r = false ->
     result_of net p = Raised (HTTPStatusError (status_error_text r))) /\
  (forall details : string,
     remote_failure reply details ->
     exists e : exn,
       result_of net p = Raised e /\ is_HTTPError e = true /\ exn_str e = details) /\
  (forall J : value, remote_success reply J -> result_of net p = Returned J).
Proof.
  cbv zeta. unfold result_of, requests_of. rewrite run_helper. cbn [fst snd].
  split; [ reflexivity | ].
  split; [ intros e ->; reflexivity | ].
  split; [ intros r -> ->; reflexivity | ].
  split.
  - intros details Hfail.
    inversion Hfail as [e He Hnet | r Hr Hnet]; subst.
    + exists e. auto.
    + exists (HTTPStatusError (status_error_text r)). rewrite Hr. auto.
  - intros J (r & -> & -> & ->). reflexivity.
Qed.

Lemma C4_helper_contract_witness :
  let net : transport :=
    fun rq => if String.eqb (req_url rq) "https://rejestr.io/api/v2/konto/stan"
              then Returned (response_ok (PyInt 7))
              else Returned response_401 in
  result_of net (make_rejestr_io_request env_with_key "konto/stan") = Returned (PyInt 7) /\
  result_of net (make_rejestr_io_request env_with_key "org/1") =
    Raised (HTTPStatusError "Client error '401 Unauthorized'").
Proof.
  intros net. split.
  - destruct (C4_helper_contract env_with_key "konto/stan" net) as (_ & _ & _ & _ & H).
    apply H. exists (response_ok (PyInt 7)). repeat split.
  - destruct (C4_helper_contract env_with_key "org/1" net) as (_ & _ & H & _ & _).
    apply (H response_401); reflexivity.
Defined.

(** ** Endpoints of the single tools (C5, C6, C7) *)

(** C5: [get_company_info_using_krs(krs)] requests [org/{krs}] with the
    argument as given: ["0000012345"] and ["12345"] go out as
    [org/0000012345] and [org/12345], and no two different arguments are
    mapped to one endpoint. *)
Theorem C5_krs_verbatim (getenv : string -> option string) (net : transport) :
  (forall krs : string,
     requests_of net (get_company_info_using_krs getenv krs) =
     [spec_request getenv ("org/" ++ krs)]) /\
  map req_url (requests_of net (get_company_info_using_krs getenv "0000012345")) =
    ["https://rejestr.io/api/v2/org/0000012345"] /\
  map req_url (requests_of net (get_company_info_using_krs getenv "12345")) =
    ["https://rejestr.io/api/v2/org/12345"] /\
  (forall krs krs' : string,
     requests_of net (get_company_info_using_krs getenv krs) =
     requests_of net (get_company_info_using_krs getenv krs') ->
     krs = krs').
Proof.
  assert (Hreq : forall krs,
             requests_of net (get_company_info_using_krs getenv krs) =
             [spec_request getenv ("org/" ++ krs)]).
  { intros krs.
    exact (requests_of_invoke getenv (fun _ => EmptyString) (Call_get_company_info_using_krs krs) net). }
  split; [ exact Hreq | ].
  split; [ rewrite Hreq; reflexivity | ].
  split; [ rewrite Hreq; reflexivity | ].
  intros krs krs' H. rewrite !Hreq in H.
  injection H as H. exact H.
Qed.

(** C6: [get_company_krs_documentation(krs, chapter)] requests
    [org/{krs}/krs-rozdzialy/{chapter}] for every chapter string, listed in
    the docstring or not; what it returns is the remote body when the call
    succeeds and the error envelope when the call fails, and nothing else
    is ever returned. *)
Theorem C6_chapter_verbatim (getenv : string -> option string) (net : transport)
    (krs chapter : string) :
  let p := get_company_krs_documentation getenv krs chapter in
  let reply := net (spec_request getenv ("org/" ++ krs ++ "/krs-rozdzialy/" ++ chapter)) in
  requests_of net p =
    [spec_request getenv ("org/" ++ krs ++ "/krs-rozdzialy/" ++ chapter)] /\
  requests_of net (get_company_krs_documentation getenv krs "ogolny") =
    [spec_request getenv ("org/" ++ krs ++ "/krs-rozdzialy/ogolny")] /\
  (forall details : string,
     remote_failure reply details -> result_of net p = Returned (error_envelope details)) /\
  (forall J : value, remote_success reply J -> result_of net p = Returned J) /\
  (forall v : value,
     result_of net p = Returned v ->
     (exists details, remote_failure reply details /\ v = error_envelope details) \/
     remote_success reply v).
Proof.
  cbv zeta.
  pose (c := Call_get_company_krs_documentation krs chapter).
  change (get_company_krs_documentation getenv krs chapter)
    with (invoke getenv (fun _ => EmptyString) c).
  change ("org/" ++ krs ++ "/krs-rozdzialy/" ++ chapter) with (spec_template c).
  split; [ apply requests_of_invoke | ].
  split; [ exact (requests_of_invoke getenv (fun _ => EmptyString)
                    (Call_get_company_krs_documentation krs "ogolny") net) | ].
  split; [ intros details H; exact (result_of_invoke_failure _ _ c net details H) | ].
  split; [ intros J H; exact (result_of_invoke_success _ _ c net J H) | ].
  intros v. unfold result_of. rewrite run_invoke. cbn [fst is_balance_check c].
  destruct (net _) as [r | e].
  - destruct (is_success r) eqn:Hok.
    + destruct (json_body r) as [J | ] eqn:Hbody; [ | discriminate ].
      intros [= <-]. right. exists r. auto.
    + intros [= <-]. left. exists (status_error_text r).
      split; [ constructor; exact Hok | reflexivity ].
  - destruct (is_HTTPError e) eqn:He; [ | discriminate ].
    intros [= <-]. left. exists (exn_str e).
    split; [ constructor; exact He | reflexivity ].
Qed.

Lemma C6_chapter_verbatim_witness :
  let net : transport := fun _ => Returned response_401 in
  requests_of net (get_company_krs_documentation env_with_key "12345" "nieznany") =
    [spec_request env_with_key "org/12345/krs-rozdzialy/nieznany"] /\
  result_of net (get_company_krs_documentation env_with_key "12345" "nieznany") =
    Returned (error_envelope "Client error '401 Unauthorized'").
Proof.
  intros net.
  destruct (C6_chapter_verbatim env_with_key net "12345" "nieznany")
    as (Hreq & _ & Hfail & _ & _).
  split; [ exact Hreq | ].
  apply Hfail. exact (Status_failure response_401 eq_refl).
Defined.

(** C7: [get_financial_statement_in_json(krs, doc_id)] requests
    [org/{krs}/krs-dokumenty/{doc_id}?format=json] with both arguments as
    given and the query [?format=json] at the end. *)
Theorem C7_statement_endpoint (getenv : string -> option string) (net : transport)
    (krs doc_id : string) :
  requests_of net (get_financial_statement_in_json getenv krs doc_id) =
  [{| req_url := "https://rejestr.io/api/v2/org/" ++ krs ++ "/krs-dokumenty/"
                   ++ doc_id ++ "?format=json";
      req_headers := headers getenv |}].
Proof.
  exact (requests_of_invoke getenv (fun _ => EmptyString)
           (Call_get_financial_statement_in_json krs doc_id) net).
Qed.

(** ** An absent credential (C8) *)

(** With the key in the environment the client's check passes and the
    request goes to the remote service. *)
Lemma httpx_client_with_key (getenv : string -> option string) (key endpoint : string)
    (remote : transport) :
  getenv "REJESTR_IO_API_KEY" = Some key ->
  httpx_client remote (spec_request getenv endpoint) = remote (spec_request getenv endpoint).
Proof.
  intros Hkey. unfold httpx_client, spec_request. cbn. rewrite Hkey. reflexivity.
Qed.




(** ** Independence of invocations (C9) *)

Section Interleaving.

Context {A B S : Type}.
Variable srv : service S.
Variables (u1 u2 : string) (h1 h2 : header_dict).
Variable k1 : outcome Response -> io A.
Variable k2 : outcome Response -> io B.
Variable f1 : outcome Response -> outcome A.
Variable f2 : outcome Response -> outcome B.
Hypothesis k1_done : forall r, k1 r = Done (f1 r).
Hypothesis k2_done : forall r, k2 r = Done (f2 r).

Lemma interleave_both_done (schedule : list bool) (a : outcome A) (b : outcome B) (st : S) :
  interleave srv schedule (Done a) (Done b) st = (a, b, st).
Proof.
  induction schedule as [ | [ | ] rest IH]; cbn; auto.
Qed.

Lemma interleave_first_done (schedule : list bool) (a : outcome A) (st : S) :
  interleave srv schedule (Done a) (Await_get u2 h2 k2) st =
  (a, f2 (fst (srv st (mk_request u2 h2))), snd (srv st (mk_request u2 h2))).
Proof.
  induction schedule as [ | [ | ] rest IH]; cbn.
  - destruct (srv st _) as [r st']. cbn. rewrite k2_done. reflexivity.
  - exact IH.
  - destruct (srv st _) as [r st']. cbn. rewrite k2_done.
    apply interleave_both_done.
Qed.

Lemma interleave_second_done (schedule : list bool) (b : outcome B) (st : S) :
  interleave srv schedule (Await_get u1 h1 k1) (Done b) st =
  (f1 (fst (srv st (mk_request u1 h1))), b, snd (srv st (mk_request u1 h1))).
Proof.
  induction schedule as [ | [ | ] rest IH]; cbn.
  - destruct (srv st _) as [r st']. cbn. rewrite k1_done. reflexivity.
  - destruct (srv st _) as [r st']. cbn. rewrite k1_done.
    apply interleave_both_done.
  - exact IH.
Qed.

Lemma interleave_serializes (schedule : list bool) (st : S) :
  let run2 := interleave srv schedule (Await_get u1 h1 k1) (Await_get u2 h2 k2) st in
  run2 = first_then_second srv (mk_request u1 h1) (mk_request u2 h2) f1 f2 st \/
  run2 = second_then_first srv (mk_request u1 h1) (mk_request u2 h2) f1 f2 st.
Proof.
  cbv zeta. unfold first_then_second, second_then_first.
  destruct schedule as [ | [ | ] rest]; cbn.
  - left. destruct (srv st _) as [r1 st1]. rewrite k1_done. cbn.
    destruct (srv st1 _) as [r2 st2]. rewrite k2_done. reflexivity.
  - left. destruct (srv st _) as [r1 st1]. rewrite k1_done.
    rewrite interleave_first_done.
    destruct (srv st1 _) as [r2 st2]. reflexivity.
  - right. destruct (srv st _) as [r2 st2]. rewrite k2_done.
    rewrite interleave_second_done.
    destruct (srv st2 _) as [r1 st1]. reflexivity.
Qed.

End Interleaving.

(** C9: a tool call is a function of its arguments, the credential and the
    answer to its own one request ([tool_result]).  Two calls in flight at
    once, under any schedule: against a service without state each gets
    the result it gets when run alone; against a service with state the
    run equals one of the two serial orders, each call's result computed
    from the answer to its own request; and (the two-run form) the result
    of a call is the same in two runs that agree on the answer to its
    request, whatever the other call, the schedule and the other answers
    are. *)
Theorem C9_invocations_independent (getenv : string -> option string)
    (format_value : value -> string) (c1 c2 : tool_call) :
  let p1 := invoke getenv format_value c1 in
  let p2 := invoke getenv format_value c2 in
  let rq1 := spec_request getenv (spec_template c1) in
  let rq2 := spec_request getenv (spec_template c2) in
  (forall net : transport,
     run net p1 = (tool_result getenv format_value c1 (net rq1), [rq1])) /\
  (forall (net : transport) (schedule : list bool),
     interleave (stateless net) schedule p1 p2 tt =
     (result_of net p1, result_of net p2, tt)) /\
  (forall (S : Type) (srv : service S) (schedule : list bool) (st : S),
     interleave srv schedule p1 p2 st =
       first_then_second srv rq1 rq2 (tool_result getenv format_value c1)
         (tool_result getenv format_value c2) st \/
     interleave srv schedule p1 p2 st =
       second_then_first srv rq1 rq2 (tool_result getenv format_value c1)
         (tool_result getenv format_value c2) st) /\
  (forall (net net' : transport) (schedule schedule' : list bool) (c2' : tool_call),
     net rq1 = net' rq1 ->
     fst (fst (interleave (stateless net) schedule p1 p2 tt)) =
     fst (fst (interleave (stateless net') schedule' p1
                 (invoke getenv format_value c2') tt))).
Proof.
  intros p1 p2 rq1 rq2.
  assert (Halone : forall c net,
             run net (invoke getenv format_value c) =
             (tool_result getenv format_value c
                (net (spec_request getenv (spec_template c))),
              [spec_request getenv (spec_template c)])).
  { intros c net. unfold tool_result, result_of. rewrite !run_invoke. reflexivity. }
  assert (Hserial : forall c c' (S : Type) (srv : service S) schedule st,
             let q := invoke getenv format_value c in
             let q' := invoke getenv format_value c' in
             let rq := spec_request getenv (spec_template c) in
             let rq' := spec_request getenv (spec_template c') in
             interleave srv schedule q q' st =
               first_then_second srv rq rq' (tool_result getenv format_value c)
                 (tool_result getenv format_value c') st \/
             interleave srv schedule q q' st =
               second_then_first srv rq rq' (tool_result getenv format_value c)
                 (tool_result getenv format_value c') st).
  { intros c c' S srv schedule st. cbv zeta.
    destruct (invoke_awaits getenv format_value c) as (k & -> & Hk).
    destruct (invoke_awaits getenv format_value c') as (k' & -> & Hk').
    exact (interleave_serializes srv _ _ _ _ k k' _ _ Hk Hk' schedule st). }
  assert (Hstateless : forall c c' net schedule,
             interleave (stateless net) schedule (invoke getenv format_value c)
               (invoke getenv format_value c') tt =
             (result_of net (invoke getenv format_value c),
              result_of net (invoke getenv format_value c'), tt)).
  { intros c c' net schedule. unfold result_of. rewrite !Halone. cbn [fst].
    destruct (Hserial c c' unit (stateless net) schedule tt) as [-> | ->];
      reflexivity. }
  split; [ exact (Halone c1) | ].
  split; [ exact (Hstateless c1 c2) | ].
  split; [ exact (Hserial c1 c2) | ].
  intros net net' schedule schedule' c2' Hagree.
  subst p1 p2. rewrite !Hstateless. cbn [fst].
  unfold result_of. rewrite !Halone. cbn [fst].
  fold rq1. rewrite Hagree. reflexivity.
Qed.

Lemma C9_invocations_independent_witness :
  interleave metered_service [false; true]
    (invoke env_with_key format_scalar Call_get_token_amount)
    (invoke env_with_key format_scalar (Call_get_financial_statement_in_json "12345" "9"))
    10%Z =
  (Returned (PyStr "9 PLN"), Returned (PyDict [("id", PyInt 9)]), 9%Z) /\
  interleave metered_service [true; false]
    (invoke env_with_key format_scalar Call_get_token_amount)
    (invoke env_with_key format_scalar (Call_get_financial_statement_in_json "12345" "9"))
    10%Z =
  (Returned (PyStr "10 PLN"), Returned (PyDict [("id", PyInt 9)]), 9%Z).
Proof.
  pose proof (C9_invocations_independent env_with_key format_scalar
                Call_get_token_amount
                (Call_get_financial_statement_in_json "12345" "9")) as H.
  cbv zeta in H. destruct H as (_ & _ & H & _).
  split.
  - destruct (H Z metered_service [false; true] 10%Z) as [E | E].
    + vm_compute in E. discriminate E.
    + rewrite E. reflexivity.
  - destruct (H Z metered_service [true; false] 10%Z) as [E | E].
    + rewrite E. reflexivity.
    + vm_compute in E. discriminate E.
Defined.

(** ** Arguments are not encoded (C10) *)

Lemma length_split_on (sep : ascii) (s : string) :
  length (split_on sep s) = S (count_char sep s).
Proof.
  induction s as [ | ch rest IH]; cbn; [ reflexivity | ].
  destruct (Ascii.eqb ch sep); cbn.
  - rewrite IH. reflexivity.
  - destruct (split_on sep rest) as [ | piece pieces]; cbn in *; [ discriminate IH | exact IH ].
Qed.

(** C10: every tool puts its string arguments into the endpoint as they
    are, so the URL handed to the client is the base, a slash and the
    template with the raw arguments.  For the search by name that URL is
    [{base}/org?nazwa={name}], whose query has one parameter more for each
    ['&'] of the name (up to a ['#']): the name ["Jan&strona=2"] is sent as
    the two parameters [nazwa=Jan] and [strona=2].  In a path a ['/'] of an
    argument adds segments: [get_person_data("1/krs-powiazania")] issues the
    request of [get_connections_by_person("1")]. *)
Theorem C10_arguments_not_encoded (getenv : string -> option string)
    (format_value : value -> string) (net : transport) :
  (forall c : tool_call,
     map req_url (requests_of net (invoke getenv format_value c)) =
     [REJESTR_IO_BASE_API ++ "/" ++ spec_template c]) /\
  (forall name : string,
     map req_url (requests_of net (get_company_info_using_name getenv name)) =
     ["https://rejestr.io/api/v2/org?nazwa=" ++ name]) /\
  (forall name : string,
     let url := "https://rejestr.io/api/v2/org?nazwa=" ++ name in
     url_path url = "https://rejestr.io/api/v2/org" /\
     query_parameters url = split_on "&" ("nazwa=" ++ before_first "#" name) /\
     length (query_parameters url) = S (count_char "&" (before_first "#" name))) /\
  map query_parameters
    (map req_url (requests_of net (get_company_info_using_name getenv "Jan&strona=2"))) =
    [["nazwa=Jan"; "strona=2"]] /\
  requests_of net (get_person_data getenv "1/krs-powiazania") =
  requests_of net (get_connections_by_person getenv "1").
Proof.
  assert (Hname : forall name,
             map req_url (requests_of net (get_company_info_using_name getenv name)) =
             ["https://rejestr.io/api/v2/org?nazwa=" ++ name]).
  { intros name.
    change (get_company_info_using_name getenv name)
      with (invoke getenv format_value (Call_get_company_info_using_name name)).
    rewrite requests_of_invoke. reflexivity. }
  split; [ intros c; rewrite requests_of_invoke; reflexivity | ].
  split; [ exact Hname | ].
  split.
  - intros name url.
    assert (Hq : query_parameters url = split_on "&" ("nazwa=" ++ before_first "#" name))
      by reflexivity.
    split; [ reflexivity | ].
    split; [ exact Hq | ].
    rewrite Hq, length_split_on. reflexivity.
  - split; [ rewrite Hname; reflexivity | ].
    change (get_person_data getenv "1/krs-powiazania")
      with (invoke getenv format_value (Call_get_person_data "1/krs-powiazania")).
    change (get_connections_by_person getenv "1")
      with (invoke getenv format_value (Call_get_connections_by_person "1")).
    rewrite !requests_of_invoke. reflexivity.
Qed.

(** ** Beyond the claims: what leaves a tool *)

(** When a tool raises.  An exception leaves a tool call in exactly two
    cases: the client raised an exception that is no [httpx.HTTPError], or
    the answer was 2xx and its body did not decode, which is the
    [JSONDecodeError] of [response.json()].  Neither is turned into an
    error value. *)
Theorem tool_raises_iff (getenv : string -> option string)
    (format_value : value -> string) (c : tool_call) (net : transport) (e : exn) :
  result_of net (invoke getenv format_value c) = Raised e <->
  (net (spec_request getenv (spec_template c)) = Raised e /\ is_HTTPError e = false) \/
  (exists r : Response,
     net (spec_request getenv (spec_template c)) = Returned r /\
     is_success r = true /\ json_body r = None /\
     e = JSONDecodeError (json_error_text r)).
Proof.
  unfold result_of. rewrite run_invoke. cbn [fst].
  destruct (net _) as [r | e'].
  - destruct (is_success r) eqn:Hok.
    + destruct (json_body r) as [J | ] eqn:Hbody.
      * split; [ discriminate | ].
        intros [[H _] | (r' & H & _ & Hnone & _)]; [ discriminate H | ].
        injection H as <-. rewrite Hbody in Hnone. discriminate Hnone.
      * split.
        -- intros [= <-]. right. exists r. auto.
        -- intros [[H _] | (r' & H & _ & _ & ->)]; [ discriminate H | ].
           injection H as <-. reflexivity.
    + split; [ discriminate | ].
      intros [[H _] | (r' & H & Hok' & _)]; [ discriminate H | ].
      injection H as <-. rewrite Hok in Hok'. discriminate Hok'.
  - destruct (is_HTTPError e') eqn:He.
    + split; [ discriminate | ].
      intros [[H He'] | (r' & H & _)]; [ | discriminate H ].
      injection H as <-. rewrite He in He'. discriminate He'.
    + split.
      * intros [= <-]. left. auto.
      * intros [[H _] | (r' & H & _)]; [ | discriminate H ].
        injection H as <-. reflexivity.
Qed.

(** When a tool returns, and what.  A value comes back in exactly two
    cases: the remote call failed, and the value is the tool's error value
    for the cause; or the remote call succeeded with body [J], and the
    value is [J] (for the balance check, the string made of it). *)
Theorem tool_returns_iff (getenv : string -> option string)
    (format_value : value -> string) (c : tool_call) (net : transport) (v : value) :
  result_of net (invoke getenv format_value c) = Returned v <->
  (exists details : string,
     remote_failure (net (spec_request getenv (spec_template c))) details /\
     v = match c with
         | Call_get_token_amount => PyStr ("An error occurred: " ++ details)
         | _ => error_envelope details
         end) \/
  (exists J : value,
     remote_success (net (spec_request getenv (spec_template c))) J /\
     v = match c with
         | Call_get_token_amount => PyStr (format_value J ++ " PLN")
         | _ => J
         end).
Proof.
  split.
  - unfold result_of. rewrite run_invoke. cbn [fst].
    destruct (net _) as [r | e].
    + destruct (is_success r) eqn:Hok.
      * destruct (json_body r) as [J | ] eqn:Hbody; [ | discriminate ].
        intros [= <-]. right. exists J.
        split; [ exists r; auto | destruct c; reflexivity ].
      * intros [= <-]. left. exists (status_error_text r).
        split; [ constructor; exact Hok | destruct c; reflexivity ].
    + destruct (is_HTTPError e) eqn:He; [ | discriminate ].
      intros [= <-]. left. exists (exn_str e).
      split; [ constructor; exact He | destruct c; reflexivity ].
  - intros [(details & Hfail & ->) | (J & Hok & ->)].
    + rewrite (result_of_invoke_failure getenv format_value c net details Hfail).
      destruct c; reflexivity.
    + rewrite (result_of_invoke_success getenv format_value c net J Hok).
      destruct c; reflexivity.
Qed.

(** A failure cannot be told from a success by the value.  For a data tool
    the value returned after a remote failure is also the value returned
    after a successful call whose body happens to be that mapping. *)
Theorem error_value_is_ambiguous (getenv : string -> option string)
    (format_value : value -> string) (c : tool_call) (net net' : transport)
    (details : string) :
  is_balance_check c = false ->
  remote_failure (net (spec_request getenv (spec_template c))) details ->
  remote_success (net' (spec_request getenv (spec_template c))) (error_envelope details) ->
  result_of net (invoke getenv format_value c) =
  result_of net' (invoke getenv format_value c).
Proof.
  intros Hc Hfail Hok.
  rewrite (result_of_invoke_failure getenv format_value c net details Hfail).
  rewrite (result_of_invoke_success getenv format_value c net' _ Hok).
  rewrite Hc. reflexivity.
Qed.

Lemma error_value_is_ambiguous_witness :
  result_of (fun _ => Raised (RequestError "timed out"))
    (invoke env_with_key format_scalar (Call_get_financial_documents "12345")) =
  result_of (fun _ => Returned (response_ok (error_envelope "timed out")))
    (invoke env_with_key format_scalar (Call_get_financial_documents "12345")).
Proof.
  apply (error_value_is_ambiguous env_with_key format_scalar
           (Call_get_financial_documents "12345")
           (fun _ => Raised (RequestError "timed out"))
           (fun _ => Returned (response_ok (error_envelope "timed out")))
           "timed out").
  - reflexivity.
  - exact (Network_failure (RequestError "timed out") eq_refl).
  - exists (response_ok (error_envelope "timed out")). repeat split.
Defined.

(** ** Beyond the claims: one tool reaching another's endpoint *)

(** The lookup by registry number reaches every endpoint under [org/]: for
    a data call whose endpoint is [org/] followed by [s], the call
    [get_company_info_using_krs(s)] issues the same request and gives the
    same result, against every transport. *)
Theorem krs_lookup_reaches_org_endpoints (getenv : string -> option string)
    (format_value : value -> string) (c : tool_call) (s : string) (net : transport) :
  is_balance_check c = false ->
  spec_template c = "org/" ++ s ->
  run net (get_company_info_using_krs getenv s) = run net (invoke getenv format_value c).
Proof.
  intros Hc Hs.
  change (get_company_info_using_krs getenv s)
    with (invoke getenv format_value (Call_get_company_info_using_krs s)).
  rewrite !run_invoke. cbn [spec_template is_balance_check].
  rewrite Hc, Hs. reflexivity.
Qed.

Lemma krs_lookup_reaches_org_endpoints_witness :
  run (fun _ => Returned (response_ok (PyInt 1)))
    (get_company_info_using_krs env_with_key "12345/krs-dokumenty/9?format=json") =
  run (fun _ => Returned (response_ok (PyInt 1)))
    (invoke env_with_key format_scalar (Call_get_financial_statement_in_json "12345" "9")).
Proof.
  apply (krs_lookup_reaches_org_endpoints env_with_key format_scalar
           (Call_get_financial_statement_in_json "12345" "9")
           "12345/krs-dokumenty/9?format=json"); reflexivity.
Defined.

(** ** Beyond the claims: where the credential goes *)

(** The credential goes into the header and nowhere else.  The URL of a
    call is the same in every environment; the result is the same whenever
    the answers are; and of the environment only [REJESTR_IO_API_KEY] is
    read: two environments that agree on it give the same run. *)
Theorem credential_only_in_header (getenv getenv' : string -> option string)
    (format_value : value -> string) (c : tool_call) (net net' : transport) :
  map req_url (requests_of net (invoke getenv format_value c)) =
    map req_url (requests_of net' (invoke getenv' format_value c)) /\
  (net (spec_request getenv (spec_template c)) =
     net' (spec_request getenv' (spec_template c)) ->
   result_of net (invoke getenv format_value c) =
     result_of net' (invoke getenv' format_value c)) /\
  (getenv "REJESTR_IO_API_KEY" = getenv' "REJESTR_IO_API_KEY" ->
   run net (invoke getenv format_value c) = run net (invoke getenv' format_value c)).
Proof.
  split; [ | split ].
  - rewrite !requests_of_invoke. reflexivity.
  - intros Hsame. unfold result_of. rewrite !run_invoke, Hsame. reflexivity.
  - intros Hkey. rewrite !run_invoke. unfold spec_request. rewrite Hkey. reflexivity.
Qed.

Lemma credential_only_in_header_witness :
  let env' : string -> option string :=
    fun name => if String.eqb name "HOME" then Some "/root" else env_with_key name in
  run (fun _ => Returned response_401)
    (invoke env_with_key format_scalar (Call_get_person_data "7")) =
  run (fun _ => Returned response_401)
    (invoke env' format_scalar (Call_get_person_data "7")).
Proof.
  intros env'.
  destruct (credential_only_in_header env_with_key env' format_scalar
              (Call_get_person_data "7") (fun _ => Returned response_401)
              (fun _ => Returned response_401)) as (_ & _ & H).
  apply H. reflexivity.
Defined.

(** ** Beyond the claims: arguments without URL metacharacters *)

Lemma length_append (a b : string) :
  String.length (a ++ b) = String.length a + String.length b.
Proof. induction a as [ | ch a IH]; cbn; [ reflexivity | rewrite IH; reflexivity ]. Qed.

Lemma append_cancel_r (s a b : string) : a ++ s = b ++ s -> a = b.
Proof.
  revert b. induction a as [ | ch a IH]; intros [ | ch' b] H; cbn in H.
  - reflexivity.
  - apply (f_equal String.length) in H. cbn in H. rewrite length_append in H. lia.
  - apply (f_equal String.length) in H. cbn in H. rewrite length_append in H. lia.
  - injection H as -> H. rewrite (IH b H). reflexivity.
Qed.

(** Two strings cut at their first separator: equal wholes have equal
    parts. *)
Lemma append_sep_inj (sep : ascii) (a a' b b' : string) :
  count_char sep a = 0 -> count_char sep a' = 0 ->
  a ++ String sep b = a' ++ String sep b' -> a = a' /\ b = b'.
Proof.
  revert a'. induction a as [ | ch a IH]; intros [ | ch' a'] Ha Ha' H; cbn in *.
  - injection H as ->. auto.
  - injection H as <- _. rewrite Ascii.eqb_refl in Ha'. discriminate Ha'.
  - injection H as -> _. rewrite Ascii.eqb_refl in Ha. discriminate Ha.
  - injection H as -> H.
    destruct (Ascii.eqb ch' sep); [ discriminate Ha | ].
    destruct (IH a' Ha Ha' H) as [-> ->]. auto.
Qed.

Lemma before_first_app (sep : ascii) (a b : string) :
  count_char sep a = 0 -> before_first sep (a ++ b) = a ++ before_first sep b.
Proof.
  induction a as [ | ch a IH]; cbn; [ reflexivity | ].
  destruct (Ascii.eqb ch sep); [ discriminate | ].
  intros Ha. rewrite (IH Ha). reflexivity.
Qed.

Lemma after_first_app (sep : ascii) (a b : string) :
  count_char sep a = 0 -> after_first sep (a ++ b) = after_first sep b.
Proof.
  induction a as [ | ch a IH]; cbn; [ reflexivity | ].
  destruct (Ascii.eqb ch sep); [ discriminate | exact IH ].
Qed.

Lemma before_first_clean (sep : ascii) (a : string) :
  count_char sep a = 0 -> before_first sep a = a.
Proof.
  induction a as [ | ch a IH]; cbn; [ reflexivity | ].
  destruct (Ascii.eqb ch sep); [ discriminate | ].
  intros Ha. rewrite (IH Ha). reflexivity.
Qed.

Lemma after_first_clean (sep : ascii) (a : string) :
  count_char sep a = 0 -> after_first sep a = None.
Proof.
  induction a as [ | ch a IH]; cbn; [ reflexivity | ].
  destruct (Ascii.eqb ch sep); [ discriminate | exact IH ].
Qed.

Ltac split_forall :=
  repeat match goal with
         | H : Forall _ (_ :: _) |- _ => inversion H; clear H; subst
         | H : Forall _ [] |- _ => clear H
         | H : _ /\ _ |- _ => destruct H
         end.

Ltac walk_url :=
  repeat (cbn;
          first [ rewrite (before_first_app "#") by assumption
                | rewrite (before_first_clean "#") by assumption
                | rewrite (before_first_app "?") by assumption
                | rewrite (after_first_app "?") by assumption
                | rewrite (before_first_clean "?") by assumption
                | rewrite (after_first_clean "?") by assumption ]);
  cbn.

Ltac cut_at_slash H H' :=
  match type of H with
  | ?a ++ String "/" ?b = ?a' ++ String "/" ?b' =>
      match goal with
      | Ha : count_char "/" a = 0, Ha' : count_char "/" a' = 0 |- _ =>
          destruct (append_sep_inj "/" a a' b b' Ha Ha' H) as [-> H']
      end
  end.

Lemma append_empty_r (a : string) : a ++ EmptyString = a.
Proof. induction a as [ | ch a IH]; cbn; [ reflexivity | rewrite IH; reflexivity ]. Qed.

(** The path and the query a call sends when its arguments hold no ['?']
    and no ['#'].  The statement fetch then sends the query [format=json]
    and nothing else, after the path with both arguments; the search by
    name sends [nazwa={name}] after the path [org]; and the other nine
    tools send no query at all, the whole URL being path. *)
Theorem query_of_plain_arguments (getenv : string -> option string)
    (format_value : value -> string) (c : tool_call) (net : transport) :
  Forall (fun a => count_char "?" a = 0 /\ count_char "#" a = 0) (call_arguments c) ->
  map url_query (map req_url (requests_of net (invoke getenv format_value c))) =
  [match c with
   | Call_get_company_info_using_name name => Some ("nazwa=" ++ name)
   | Call_get_financial_statement_in_json _ _ => Some "format=json"
   | _ => None
   end] /\
  map url_path (map req_url (requests_of net (invoke getenv format_value c))) =
  [match c with
   | Call_get_company_info_using_name _ => "https://rejestr.io/api/v2/org"
   | Call_get_financial_statement_in_json krs doc_id =>
       "https://rejestr.io/api/v2/org/" ++ krs ++ "/krs-dokumenty/" ++ doc_id
   | _ => REJESTR_IO_BASE_API ++ "/" ++ spec_template c
   end].
Proof.
  intros Hargs. rewrite requests_of_invoke.
  destruct c; cbn [call_arguments] in Hargs; split_forall;
    cbn [map req_url spec_request spec_template]; unfold url_query, url_path;
    (split; [ walk_url; reflexivity | walk_url; rewrite ?append_empty_r; reflexivity ]).
Qed.

Lemma query_of_plain_arguments_witness :
  map url_query
    (map req_url
       (requests_of (fun _ => Returned response_401)
          (invoke env_with_key format_scalar
             (Call_get_financial_statement_in_json "12345" "9")))) =
  [Some "format=json"].
Proof.
  apply (query_of_plain_arguments env_with_key format_scalar
           (Call_get_financial_statement_in_json "12345" "9")).
  repeat constructor.
Defined.

(** Without the precondition the query can be lost: a ['#'] in the
    document id turns [?format=json] into a fragment. *)
Example query_lost_in_fragment :
  map url_query
    (map req_url
       (requests_of (fun _ => Returned response_401)
          (get_financial_statement_in_json env_with_key "12345" "9#"))) =
  [None].
Proof. reflexivity. Qed.

(** Calls of one tool do not collide.  Two calls of the same tool that
    issue the same request have the same arguments, provided that in a
    two-argument call the first argument holds no ['/']. *)
Theorem same_tool_same_request (getenv : string -> option string)
    (format_value : value -> string) (c c' : tool_call) (net : transport) :
  tool_name c = tool_name c' ->
  Forall (fun a => count_char "/" a = 0) (removelast (call_arguments c)) ->
  Forall (fun a => count_char "/" a = 0) (removelast (call_arguments c')) ->
  requests_of net (invoke getenv format_value c) =
  requests_of net (invoke getenv format_value c') ->
  c = c'.
Proof.
  intros Hname Hc Hc'. rewrite !requests_of_invoke. intros H.
  destruct c, c'; cbn in Hname; try discriminate Hname; clear Hname;
    cbn in Hc, Hc'; split_forall; try (injection H as H).
  - reflexivity.
  - rewrite H. reflexivity.
  - rewrite H. reflexivity.
  - rewrite H. reflexivity.
  - cut_at_slash H H'. injection H' as ->. reflexivity.
  - rewrite H. reflexivity.
  - rewrite (append_cancel_r _ _ _ H). reflexivity.
  - rewrite (append_cancel_r _ _ _ H). reflexivity.
  - rewrite (append_cancel_r _ _ _ H). reflexivity.
  - rewrite (append_cancel_r _ _ _ H). reflexivity.
  - cut_at_slash H H'. injection H' as H'.
    rewrite (append_cancel_r _ _ _ H'). reflexivity.
Qed.

Lemma same_tool_same_request_witness :
  Call_get_company_krs_documentation "12345" "ogolny" =
  Call_get_company_krs_documentation "12345" "ogolny".
Proof.
  apply (same_tool_same_request env_with_key format_scalar
           (Call_get_company_krs_documentation "12345" "ogolny")
           (Call_get_company_krs_documentation "12345" "ogolny")
           (fun _ => Returned response_401));
    first [ reflexivity | repeat constructor ].
Defined.

(** Without the precondition two calls of one tool can collide. *)
Example documentation_calls_collide :
  requests_of (fun _ => Returned response_401)
    (get_company_krs_documentation env_with_key "1/krs-rozdzialy/akcje" "ogolny") =
  requests_of (fun _ => Returned response_401)
    (get_company_krs_documentation env_with_key "1" "akcje/krs-rozdzialy/ogolny").
Proof. reflexivity. Qed.

(** ** Beyond the claims: what the helper returns *)

(** The helper returns a value only as the decoded body of a 2xx answer:
    [J] comes back exactly when the client handed over a response with a
    2xx status whose body decodes to [J].  The body of an answer with
    another status is never returned. *)
Theorem helper_returns_iff (getenv : string -> option string) (endpoint : string)
    (net : transport) (J : value) :
  result_of net (make_rejestr_io_request getenv endpoint) = Returned J <->
  remote_success (net (spec_request getenv endpoint)) J.
Proof.
  unfold result_of, remote_success. rewrite run_helper. cbn [fst].
  destruct (net _) as [r | e].
  - destruct (is_success r) eqn:Hok.
    + destruct (json_body r) as [J' | ] eqn:Hbody.
      * split.
        -- intros [= <-]. exists r. auto.
        -- intros (r' & [= <-] & _ & Hsome). rewrite Hbody in Hsome.
           injection Hsome as <-. reflexivity.
      * split; [ discriminate | ].
        intros (r' & [= <-] & _ & Hsome). rewrite Hbody in Hsome. discriminate Hsome.
    + split; [ discriminate | ].
      intros (r' & [= <-] & Hok' & _). rewrite Hok in Hok'. discriminate Hok'.
  - split; [ discriminate | ].
    intros (r' & H & _). discriminate H.
Qed.
